(** * Chimeric peptide simulation (Benchmarking/simulate_chimeric_peptides.py)

    A shallow embedding of [get_chimeric_peptide] and of the transcript loop
    of [translate_chimeric_peptides].  Nucleotide and amino-acid strings are
    [list ascii]; Python integers are [Z]; Python slicing (with its negative
    index wrap-around and clamping) is written out in [py_slice].  The
    translation is Biopython's [Seq.translate] with the standard table: the
    64 unambiguous codons follow NCBI table 1, a codon containing a letter
    outside the IUPAC nucleotide alphabet raises [TranslationError] unless
    the codon is the all-gap [---] (translated to ['-']), and the
    residue Biopython picks for an ambiguous codon (e.g. [NNN]) is kept
    abstract as the section variable [amb_codon]. *)

From Stdlib Require Import Ascii String ZArith List Bool Lia.
Import ListNotations.

Open Scope char_scope.
Open Scope Z_scope.

(** ** Python results: a value or a raised exception *)

Inductive pyres (A : Type) : Type :=
| Ret (a : A)
| Exc.

Arguments Ret {A} a.
Arguments Exc {A}.

Definition pybind {A B : Type} (m : pyres A) (k : A -> pyres B) : pyres B :=
  match m with
  | Ret a => k a
  | Exc => Exc
  end.

Notation "'let!' x ':=' m 'in' k" := (pybind m (fun x => k))
  (at level 200, x name, m at level 100, k at level 200).

(** ** Python slicing [s[i:j]] (step 1) *)

(** A slice bound: negative bounds count from the end, then the bound is
    clamped to [0, len s]. *)
Definition norm_index (i n : Z) : Z :=
  if i <? 0 then Z.max (i + n) 0 else Z.min i n.

Definition py_slice {A : Type} (s : list A) (i j : Z) : list A :=
  let n := Z.of_nat (length s) in
  let a := norm_index i n in
  let b := norm_index j n in
  firstn (Z.to_nat (b - a)) (skipn (Z.to_nat a) s).

(** ** Biopython translation with the standard table *)

(** [str.upper] on ASCII letters. *)
Definition ascii_upper (c : ascii) : ascii :=
  let n := nat_of_ascii c in
  if (97 <=? n)%nat && (n <=? 122)%nat then ascii_of_nat (n - 32) else c.

Definition mem (c : ascii) (l : list ascii) : bool :=
  existsb (Ascii.eqb c) l.

(** IUPAC ambiguous DNA letters plus [U]: Biopython's [valid_letters]. *)
Definition valid_letters : list ascii := list_ascii_of_string "GATCURYWSMKHBVDN".

Definition dna_letters : list ascii := list_ascii_of_string "ACGT".
Definition rna_letters : list ascii := list_ascii_of_string "ACGU".

(** NCBI translation table 1, bases ordered T, C, A, G. *)
Definition table1_aas : list ascii :=
  list_ascii_of_string "FFLLSSSSYY**CC*WLLLLPPPPHHQQRRRRIIIMTTTTNNKKSSRRVVVVAAAADDEEGGGG".

Definition base_index (c : ascii) : nat :=
  if Ascii.eqb c "T" then 0
  else if Ascii.eqb c "C" then 1
  else if Ascii.eqb c "A" then 2
  else 3.

Definition std_codon (a b c : ascii) : ascii :=
  nth (16 * base_index a + 4 * base_index b + base_index c) table1_aas "X".

Definition u_to_t (c : ascii) : ascii := if Ascii.eqb c "U" then "T" else c.

(** ** Concrete inputs *)

(** A residue for ambiguous codons ([X], what Biopython gives for [NNN]). *)
Definition residue_X (a b c : ascii) : ascii := "X".

(** Forty [C]s: every shift reads [CCC] codons only. *)
Definition poly_c40 : list ascii := repeat "C" 40.

(** A 40-nt transcript whose [TAA] at positions 36..38 is in frame only for
    the +1 shift's right window (positions 21..38). *)
Definition stop_in_plus1 : list ascii := repeat "C" 36 ++ list_ascii_of_string "TAAC".

(** A 40-nt transcript with a gap [---] at positions 20..22. *)
Definition gapped40 : list ascii := repeat "C" 20 ++ list_ascii_of_string "---" ++ repeat "C" 17.

(** A 20-nt transcript whose 0-frame right window (positions 10..27)
    starts with the codon [--C]. *)
Definition short_gap20 : list ascii :=
  repeat "C" 10 ++ list_ascii_of_string "--C" ++ repeat "C" 7.

(** A 40-nt transcript with [TAA] at positions 20..22, where the 0 frame's
    right window (20..37) starts, and a gap at position 38, read only by
    the right windows of the +1 and +2 shifts. *)
Definition stop_then_gap40 : list ascii :=
  repeat "C" 20 ++ list_ascii_of_string "TAA" ++ repeat "C" 15 ++ list_ascii_of_string "-C".

(** ** File names: [open_fasta] and the output file of
    [translate_chimeric_peptides] *)

Definition str_eqb (a b : list ascii) : bool :=
  if list_eq_dec ascii_dec a b then true else false.

(** [s.startswith(pre)] *)
Definition startswith (s pre : list ascii) : bool :=
  (length pre <=? length s)%nat && str_eqb (firstn (length pre) s) pre.

(** [s.endswith(suf)] *)
Definition endswith (s suf : list ascii) : bool :=
  (length suf <=? length s)%nat && str_eqb (skipn (length s - length suf) s) suf.

(** [str.rfind(c)]: the last index of [c], or -1. *)
Fixpoint rfind_from (c : ascii) (p : list ascii) (i best : Z) : Z :=
  match p with
  | [] => best
  | x :: xs => rfind_from c xs (i + 1) (if Ascii.eqb x c then i else best)
  end.

Definition rfind (c : ascii) (p : list ascii) : Z := rfind_from c p 0 (-1).

(** [posixpath.basename]: [p[p.rfind('/') + 1:]] *)
Definition basename (p : list ascii) : list ascii :=
  py_slice p (rfind "/" p + 1) (Z.of_nat (length p)).

(** [posixpath.splitext], i.e. [genericpath._splitext(p, '/', None, '.')]:
    split at the last dot after the last slash, unless only dots precede
    it in the final component (the [while] loop over
    [p[sepIndex + 1 : dotIndex]]). *)
Definition splitext (p : list ascii) : list ascii * list ascii :=
  let sepIndex := rfind "/" p in
  let dotIndex := rfind "." p in
  if sepIndex <? dotIndex then
    if existsb (fun c => negb (Ascii.eqb c ".")) (py_slice p (sepIndex + 1) dotIndex)
    then (py_slice p 0 dotIndex, py_slice p dotIndex (Z.of_nat (length p)))
    else (p, [])
  else (p, []).

(** [posixpath.join(a, b)] *)
Definition path_join (a b : list ascii) : list ascii :=
  if startswith b ["/"] then b
  else if (length a =? 0)%nat || endswith a ["/"] then a ++ b
  else a ++ "/" :: b.

Inductive fasta_handle := GzipText | PlainText.

(** [open_fasta]: [gzip.open(f, "rt")] for a [.gz] name, [open(f, "r")]
    otherwise. *)
Definition open_fasta (fasta_file : list ascii) : fasta_handle :=
  if endswith fasta_file (list_ascii_of_string ".gz") then GzipText else PlainText.

(** [output_name] of [translate_chimeric_peptides] (lines 54-60). *)
Definition output_name (fasta_path : list ascii) : list ascii :=
  let filename_with_ext := basename fasta_path in
  if endswith filename_with_ext (list_ascii_of_string ".fa.gz")
  then py_slice filename_with_ext 0 (-6)
  else if endswith filename_with_ext (list_ascii_of_string ".fasta.gz")
  then py_slice filename_with_ext 0 (-9)
  else fst (splitext filename_with_ext).

Definition output_dir : list ascii := list_ascii_of_string "simulated_chimeric_peptides".

(** [combined_output_file] (lines 70-72). *)
Definition combined_output_file (output_prefix fasta_path : list ascii) : list ascii :=
  path_join output_dir
    (output_prefix ++ "_" :: output_name fasta_path ++
     list_ascii_of_string "_combined.fasta").

Section Chimeric.

(** The amino-acid symbol Biopython's ambiguous table yields for a codon
    over IUPAC letters that is neither a plain DNA nor a plain RNA codon. *)
Variable amb_codon : ascii -> ascii -> ascii -> ascii.

(** One (upper-case) codon, as in the loop of [_translate_str]; [None] is
    a raised [TranslationError].  [Seq.translate] passes [gap="-"], so the
    all-gap codon [---] gives ['-'] (the [codon == gap * 3] branch); any
    other codon with a letter outside the IUPAC set raises. *)
Definition translate_codon (a b c : ascii) : option ascii :=
  if forallb (fun x => mem x dna_letters) [a; b; c] then Some (std_codon a b c)
  else if forallb (fun x => mem x rna_letters) [a; b; c]
  then Some (std_codon (u_to_t a) (u_to_t b) (u_to_t c))
  else if forallb (fun x => mem x valid_letters) [a; b; c] then Some (amb_codon a b c)
  else if forallb (fun x => Ascii.eqb x "-") [a; b; c] then Some "-"
  else None.

(** The codon loop of [_translate_str]: [range(0, n - n % 3, 3)], so a
    trailing partial codon is left out; a stop codon gives ['*'] and the
    loop goes on ([to_stop=False]). *)
Fixpoint translate_codons (s : list ascii) : pyres (list ascii) :=
  match s with
  | a :: b :: c :: rest =>
      match translate_codon a b c with
      | Some x => let! xs := translate_codons rest in Ret (x :: xs)
      | None => Exc
      end
  | _ => Ret []
  end.

(** [str(Seq(s).translate(to_stop=False))] *)
Definition translate (s : list ascii) : pyres (list ascii) :=
  translate_codons (map ascii_upper s).

(** ** [get_chimeric_peptide(seq, mid_nt, shift)] *)

Definition get_chimeric_peptide (seq : list ascii) (mid_nt shift : Z)
  : pyres (option (list ascii)) :=
  let aa_each_side := 6 in
  let nt_each_side := aa_each_side * 3 in
  (* Left side (no frame shift) *)
  let left_start := Z.max (mid_nt - nt_each_side) 0 in
  let left_seq := py_slice seq left_start mid_nt in
  let! left_aa := translate left_seq in
  (* Right side (frame shifted) *)
  let right_start := mid_nt + shift in
  let right_seq := py_slice seq right_start (right_start + nt_each_side) in
  let! right_aa := translate right_seq in
  let peptide := left_aa ++ right_aa in
  (* Validate length and absence of stop codons *)
  if Z.of_nat (length peptide) <? aa_each_side * 2 then Ret None
  else if mem "*" peptide then Ret None
  else Ret (Some (firstn (Z.to_nat (aa_each_side * 2)) peptide)).

(** ** The loops of [translate_chimeric_peptides] *)

(** The [shifts] dict, in insertion (iteration) order. *)
Definition shifts : list (list ascii * Z) :=
  [ (list_ascii_of_string "0_frame", 0%Z);
    (list_ascii_of_string "+1_frame", 1%Z);
    (list_ascii_of_string "+2_frame", 2%Z);
    (list_ascii_of_string "-1_frame", (-1)%Z);
    (list_ascii_of_string "-2_frame", (-2)%Z) ].

(** The inner loop over the shifts: returns [(all_valid,
    peptides_for_transcript)]; [if peptide:] is false on [None] and on
    the empty string, and then the loop breaks. *)
Fixpoint shift_loop (full_seq : list ascii) (mid_nt : Z)
    (sh : list (list ascii * Z)) (acc : list (list ascii * list ascii))
  : pyres (bool * list (list ascii * list ascii)) :=
  match sh with
  | [] => Ret (true, acc)
  | (label, shift) :: rest =>
      let! peptide := get_chimeric_peptide full_seq mid_nt shift in
      match peptide with
      | Some ((_ :: _) as p) => shift_loop full_seq mid_nt rest (acc ++ [(label, p)])
      | _ => Ret (false, acc)
      end
  end.

(** The body for one transcript, up to the write: the peptides to write,
    or [None] when [all_valid and len(peptides_for_transcript) == 5] fails. *)
Definition transcript_peptides (full_seq : list ascii)
  : pyres (option (list (list ascii * list ascii))) :=
  let mid_nt := Z.of_nat (length full_seq) / 2 in
  let! r := shift_loop full_seq mid_nt shifts [] in
  let (all_valid, peptides) := r in
  Ret (if all_valid && (length peptides =? 5)%nat then Some peptides else None).

(** The header line [f">{seq_record.id}_{label}"]. *)
Definition header (id label : list ascii) : list ascii :=
  ">" :: id ++ "_" :: label.

(** The two lines [out_f.write(f">{id}_{label}\n{peptide}\n")]. *)
Definition record_lines (id : list ascii) (lp : list ascii * list ascii) : list (list ascii) :=
  [header id (fst lp); snd lp].

(** The loop over the records, threading [processed_count] and the lines
    written to the combined output file so far. *)
Fixpoint record_loop (records : list (list ascii * list ascii))
    (processed_count max_transcripts : Z) (out : list (list ascii))
  : pyres (list (list ascii) * Z) :=
  match records with
  | [] => Ret (out, processed_count)
  | (id, full_seq) :: rest =>
      if max_transcripts <=? processed_count then Ret (out, processed_count)
      else
        let! r := transcript_peptides full_seq in
        match r with
        | Some peps =>
            record_loop rest (processed_count + 1) max_transcripts
              (out ++ flat_map (record_lines id) peps)
        | None => record_loop rest processed_count max_transcripts out
        end
  end.

(** [translate_chimeric_peptides] on the parsed records: [None] when there
    are no records (nothing is written); otherwise the lines of the
    combined file and the final [processed_count]. *)
Definition translate_chimeric_peptides (records : list (list ascii * list ascii))
    (max_transcripts : Z) : pyres (option (list (list ascii) * Z)) :=
  match records with
  | [] => Ret None
  | _ => let! r := record_loop records 0 max_transcripts [] in Ret (Some r)
  end.

(** ** Auxiliary views of [get_chimeric_peptide] *)

Definition left_window (seq : list ascii) (mid_nt : Z) : list ascii :=
  py_slice seq (Z.max (mid_nt - 18) 0) mid_nt.

Definition right_window (seq : list ascii) (mid_nt shift : Z) : list ascii :=
  py_slice seq (mid_nt + shift) (mid_nt + shift + 18).

(** The validation and trim of lines 33-41 on the concatenation. *)
Definition check_peptide (peptide : list ascii) : option (list ascii) :=
  if Z.of_nat (length peptide) <? 12 then None
  else if mem "*" peptide then None
  else Some (firstn 12 peptide).

(** Every character is an IUPAC nucleotide letter, in either case. *)
Definition is_nucleotide_seq (seq : list ascii) : bool :=
  forallb (fun c => mem (ascii_upper c) valid_letters) seq.

(** Spec side: the [k]-th complete codon of [w], read left to right, under
    the standard genetic code. *)
Definition codon_at (w : list ascii) (k : nat) : ascii :=
  std_codon (nth (3 * k) w "N") (nth (3 * k + 1) w "N") (nth (3 * k + 2) w "N").

(** Spec side: the translation of the [length w / 3] complete codons. *)
Definition std_translate (w : list ascii) : list ascii :=
  map (codon_at w) (seq 0 (length w / 3)).

(** Spec side: the range [[i, j)] cut down to the indices [0 .. len s - 1],
    a shorter or empty window when the range runs past either end. *)
Definition spec_truncated_slice {A : Type} (s : list A) (i j : Z) : list A :=
  let n := Z.of_nat (length s) in
  firstn (Z.to_nat (Z.min j n - Z.max i 0)) (skipn (Z.to_nat (Z.max i 0)) s).

(** ** Slices *)

Lemma norm_index_bounds (i n : Z) : 0 <= n -> 0 <= norm_index i n <= n.
Proof. unfold norm_index; destruct (Z.ltb_spec i 0); lia. Qed.

Lemma py_slice_length {A : Type} (s : list A) (i j : Z) :
  length (py_slice s i j) =
  Z.to_nat (norm_index j (Z.of_nat (length s)) - norm_index i (Z.of_nat (length s))).
Proof.
  unfold py_slice.
  pose proof (norm_index_bounds i (Z.of_nat (length s)) (Nat2Z.is_nonneg _)).
  pose proof (norm_index_bounds j (Z.of_nat (length s)) (Nat2Z.is_nonneg _)).
  rewrite length_firstn, length_skipn. lia.
Qed.

(** A slice [s[i:j]] with [i <= j] has at most [j - i] elements. *)
Lemma py_slice_length_le {A : Type} (s : list A) (i j : Z) :
  i <= j -> (length (py_slice s i j) <= Z.to_nat (j - i))%nat.
Proof.
  intros Hij. rewrite py_slice_length. unfold norm_index.
  destruct (Z.ltb_spec i 0), (Z.ltb_spec j 0); lia.
Qed.

Lemma forallb_firstn {A : Type} (f : A -> bool) (k : nat) (l : list A) :
  forallb f l = true -> forallb f (firstn k l) = true.
Proof.
  revert l; induction k as [|k IH]; intros [|x l] H; simpl in *; auto.
  apply andb_prop in H as [Hx Hl]. rewrite Hx. simpl. auto.
Qed.

Lemma forallb_skipn {A : Type} (f : A -> bool) (k : nat) (l : list A) :
  forallb f l = true -> forallb f (skipn k l) = true.
Proof.
  revert l; induction k as [|k IH]; intros [|x l] H; simpl in *; auto.
  apply andb_prop in H as [_ Hl]. auto.
Qed.

Lemma forallb_py_slice {A : Type} (f : A -> bool) (s : list A) (i j : Z) :
  forallb f s = true -> forallb f (py_slice s i j) = true.
Proof. intros H. unfold py_slice. apply forallb_firstn, forallb_skipn, H. Qed.

(** ** Translation *)

Lemma translate_codons_length (s : list ascii) (aa : list ascii) :
  translate_codons s = Ret aa -> length aa = (length s / 3)%nat.
Proof.
  revert s aa.
  assert (Hgen : forall n s aa, (length s <= n)%nat ->
            translate_codons s = Ret aa -> length aa = (length s / 3)%nat).
  { induction n as [|n IH]; intros s aa Hn H.
    - destruct s; [|simpl in Hn; lia]. simpl in H. inversion H. reflexivity.
    - destruct s as [|a [|b [|c rest]]]; simpl in H.
      + inversion H; reflexivity.
      + inversion H; reflexivity.
      + inversion H; reflexivity.
      + destruct (translate_codon a b c) as [x|]; [|discriminate].
        destruct (translate_codons rest) as [xs|] eqn:E; simpl in H; [|discriminate].
        inversion H; subst. simpl in Hn.
        replace (length (a :: b :: c :: rest)) with (1 * 3 + length rest)%nat
          by (simpl; lia).
        rewrite Nat.div_add_l by lia.
        cbn [length]. rewrite (IH rest xs) by (auto; lia). reflexivity. }
  intros s aa; apply (Hgen (length s)); lia.
Qed.

Lemma translate_length (s aa : list ascii) :
  translate s = Ret aa -> length aa = (length s / 3)%nat.
Proof.
  unfold translate. intros H. apply translate_codons_length in H.
  rewrite length_map in H. exact H.
Qed.

Lemma translate_codon_valid (a b c : ascii) :
  mem a valid_letters = true -> mem b valid_letters = true -> mem c valid_letters = true ->
  exists x, translate_codon a b c = Some x.
Proof.
  intros Ha Hb Hc. unfold translate_codon. cbn [forallb]. rewrite Ha, Hb, Hc.
  cbn [andb]. destruct (_ && _); [eauto|]. destruct (_ && _); eauto.
Qed.

Lemma translate_codons_valid (s : list ascii) :
  forallb (fun c => mem c valid_letters) s = true ->
  exists aa, translate_codons s = Ret aa.
Proof.
  assert (Hgen : forall n w, (length w <= n)%nat ->
            forallb (fun c => mem c valid_letters) w = true ->
            exists aa, translate_codons w = Ret aa).
  { induction n as [|n IH]; intros w Hn H.
    - destruct w; [|simpl in Hn; lia]. exists []; reflexivity.
    - destruct w as [|a [|b [|c rest]]]; try (eexists; reflexivity).
      cbn [forallb] in H. rewrite !andb_true_iff in H. destruct H as (Ha & Hb & Hc & Hr).
      simpl in Hn.
      destruct (IH rest ltac:(lia) Hr) as [xs Hxs].
      destruct (translate_codon_valid a b c Ha Hb Hc) as [x Hx].
      cbn [translate_codons]. rewrite Hx, Hxs. eexists; reflexivity. }
  intros H; apply (Hgen (length s)); auto.
Qed.

Lemma translate_nucleotide (s : list ascii) :
  is_nucleotide_seq s = true -> exists aa, translate s = Ret aa.
Proof.
  intros H. unfold translate. apply translate_codons_valid.
  unfold is_nucleotide_seq in H. rewrite forallb_forall in H |- *.
  intros c Hc. apply in_map_iff in Hc as (c' & <- & Hc'). auto.
Qed.

(** ** [get_chimeric_peptide] *)

Lemma get_chimeric_peptide_eq (seq : list ascii) (mid_nt shift : Z) :
  get_chimeric_peptide seq mid_nt shift =
  (let! left_aa := translate (left_window seq mid_nt) in
   let! right_aa := translate (right_window seq mid_nt shift) in
   Ret (check_peptide (left_aa ++ right_aa))).
Proof.
  unfold get_chimeric_peptide, left_window, right_window, check_peptide. cbv zeta.
  change (6 * 3) with 18. change (Z.to_nat (6 * 2)) with 12%nat. change (6 * 2) with 12.
  destruct (translate (py_slice seq (Z.max (mid_nt - 18) 0) mid_nt)) as [la|];
    cbn [pybind]; [|reflexivity].
  destruct (translate (py_slice seq (mid_nt + shift) (mid_nt + shift + 18))) as [ra|];
    cbn [pybind]; [|reflexivity].
  destruct (_ <? _); [reflexivity|]. destruct (mem _ _); reflexivity.
Qed.

Lemma mem_In (c : ascii) (l : list ascii) : mem c l = true <-> In c l.
Proof.
  unfold mem. rewrite existsb_exists. split.
  - intros (x & Hx & E). apply Ascii.eqb_eq in E. subst. exact Hx.
  - intros H. exists c. split; [exact H | apply Ascii.eqb_refl].
Qed.

Lemma left_window_length (seq : list ascii) (mid_nt : Z) :
  0 <= mid_nt -> (length (left_window seq mid_nt) <= Z.to_nat (Z.min mid_nt 18))%nat.
Proof.
  intros Hm. unfold left_window.
  pose proof (py_slice_length_le seq (Z.max (mid_nt - 18) 0) mid_nt ltac:(lia)). lia.
Qed.

Lemma right_window_length (seq : list ascii) (mid_nt shift : Z) :
  (length (right_window seq mid_nt shift) <= 18)%nat.
Proof.
  unfold right_window.
  pose proof (py_slice_length_le seq (mid_nt + shift) (mid_nt + shift + 18) ltac:(lia)). lia.
Qed.

Lemma div3_le (m k : nat) : (m < 3 * S k)%nat -> (m / 3 <= k)%nat.
Proof.
  intros H. assert (m / 3 < S k)%nat by (apply Nat.Div0.div_lt_upper_bound; lia). lia.
Qed.

(** With a non-negative midpoint, both halves translate to at most six
    residues; an accepted peptide is six plus six, untrimmed. *)
Lemma get_chimeric_peptide_some (seq : list ascii) (mid_nt shift : Z) (p : list ascii) :
  0 <= mid_nt ->
  get_chimeric_peptide seq mid_nt shift = Ret (Some p) ->
  exists la ra,
    translate (left_window seq mid_nt) = Ret la /\
    translate (right_window seq mid_nt shift) = Ret ra /\
    length la = 6%nat /\ length ra = 6%nat /\ p = la ++ ra /\ ~ In "*" p.
Proof.
  intros Hm H. rewrite get_chimeric_peptide_eq in H.
  destruct (translate (left_window seq mid_nt)) as [la|] eqn:El; [|discriminate].
  destruct (translate (right_window seq mid_nt shift)) as [ra|] eqn:Er; [|discriminate].
  cbn [pybind] in H. unfold check_peptide in H.
  destruct (Z.ltb_spec (Z.of_nat (length (la ++ ra))) 12); [discriminate|].
  destruct (mem "*" (la ++ ra)) eqn:Es; [discriminate|].
  pose proof (translate_length _ _ El) as Hl3. pose proof (translate_length _ _ Er) as Hr3.
  pose proof (left_window_length seq mid_nt Hm) as Hl.
  pose proof (right_window_length seq mid_nt shift) as Hr.
  assert (Hla : (length la <= 6)%nat) by (rewrite Hl3; apply div3_le; lia).
  assert (Hra : (length ra <= 6)%nat) by (rewrite Hr3; apply div3_le; lia).
  rewrite length_app in *.
  assert (Hall : firstn 12 (la ++ ra) = la ++ ra)
    by (apply firstn_all2; rewrite length_app; lia).
  rewrite Hall in H. injection H as <-.
  exists la, ra. split; [reflexivity|]. split; [reflexivity|].
  split; [lia|]. split; [lia|]. split; [reflexivity|].
  intros Hin. apply mem_In in Hin. congruence.
Qed.

(** ** The shift loop *)

Lemma shift_loop_true (seq : list ascii) (mid_nt : Z) (sh : list (list ascii * Z))
    (acc ps : list (list ascii * list ascii)) :
  shift_loop seq mid_nt sh acc = Ret (true, ps) ->
  exists qs, ps = acc ++ qs /\
    Forall2 (fun sp lp => fst lp = fst sp /\
               get_chimeric_peptide seq mid_nt (snd sp) = Ret (Some (snd lp))) sh qs.
Proof.
  revert acc; induction sh as [|[label shift] rest IH]; intros acc H.
  - cbn [shift_loop] in H. inversion H; subst. exists []. rewrite app_nil_r. auto.
  - cbn [shift_loop] in H.
    destruct (get_chimeric_peptide seq mid_nt shift) as [[[|c cs]|]|] eqn:E;
      cbn [pybind] in H; try discriminate.
    destruct (IH _ H) as (qs & -> & Hqs).
    exists ((label, c :: cs) :: qs). split.
    + rewrite <- app_assoc. reflexivity.
    + constructor; auto.
Qed.

Lemma Forall2_in_left {A B : Type} (P : A -> B -> Prop) (l1 : list A) (l2 : list B) (x : A) :
  Forall2 P l1 l2 -> In x l1 -> exists y, In y l2 /\ P x y.
Proof.
  induction 1 as [|a b l1' l2' Hab _ IH]; intros Hin; [contradiction|].
  destruct Hin as [<-|Hin].
  - exists b; split; [left|]; auto.
  - destruct (IH Hin) as (y & Hy & Pxy). exists y; split; [right|]; auto.
Qed.

Lemma Forall2_in_right {A B : Type} (P : A -> B -> Prop) (l1 : list A) (l2 : list B) (y : B) :
  Forall2 P l1 l2 -> In y l2 -> exists x, In x l1 /\ P x y.
Proof.
  induction 1 as [|a b l1' l2' Hab _ IH]; intros Hin; [contradiction|].
  destruct Hin as [<-|Hin].
  - exists a; split; [left|]; auto.
  - destruct (IH Hin) as (x & Hx & Pxy). exists x; split; [right|]; auto.
Qed.

(** An accepted transcript: one peptide per shift, in the table's order. *)
Lemma transcript_peptides_accepted (seq : list ascii) (ps : list (list ascii * list ascii)) :
  transcript_peptides seq = Ret (Some ps) ->
  Forall2 (fun sp lp => fst lp = fst sp /\
             get_chimeric_peptide seq (Z.of_nat (length seq) / 2) (snd sp) = Ret (Some (snd lp)))
          shifts ps.
Proof.
  unfold transcript_peptides.
  destruct (shift_loop seq (Z.of_nat (length seq) / 2) shifts []) as [[[] peps]|] eqn:E;
    cbn [pybind]; intros H; try discriminate.
  - destruct (length peps =? 5)%nat; cbn in H; inversion H; subst.
    destruct (shift_loop_true _ _ _ _ _ E) as (qs & -> & Hqs). exact Hqs.
Qed.

Lemma mid_nonneg (seq : list ascii) : 0 <= Z.of_nat (length seq) / 2.
Proof. apply Z.div_pos; lia. Qed.

Lemma Forall2_labels (seq : list ascii) (mid_nt : Z) (sh : list (list ascii * Z))
    (ps : list (list ascii * list ascii)) :
  Forall2 (fun sp lp => fst lp = fst sp /\
             get_chimeric_peptide seq mid_nt (snd sp) = Ret (Some (snd lp))) sh ps ->
  map fst ps = map fst sh.
Proof. induction 1 as [|sp lp sh' ps' [Hl _] _ IH]; cbn; congruence. Qed.

(** ** Translation of plain DNA windows *)

Lemma dna_upper (c : ascii) : mem c dna_letters = true -> ascii_upper c = c.
Proof.
  intros H. apply mem_In in H. cbn in H.
  destruct H as [<-|[<-|[<-|[<-|[]]]]]; reflexivity.
Qed.

Lemma translate_codon_dna (a b c : ascii) :
  mem a dna_letters = true -> mem b dna_letters = true -> mem c dna_letters = true ->
  translate_codon a b c = Some (std_codon a b c).
Proof.
  intros Ha Hb Hc. unfold translate_codon. cbn [forallb]. rewrite Ha, Hb, Hc. reflexivity.
Qed.

Lemma std_translate_cons3 (a b c : ascii) (rest : list ascii) :
  std_translate (a :: b :: c :: rest) = std_codon a b c :: std_translate rest.
Proof.
  unfold std_translate.
  replace (length (a :: b :: c :: rest) / 3)%nat with (S (length rest / 3)).
  2:{ replace (length (a :: b :: c :: rest)) with (1 * 3 + length rest)%nat by (cbn; lia).
      rewrite Nat.div_add_l by lia. reflexivity. }
  cbn [seq map]. f_equal.
  rewrite <- seq_shift, map_map. apply map_ext. intros k. unfold codon_at.
  replace (3 * S k)%nat with (3 + 3 * k)%nat by lia.
  replace (3 + 3 * k + 1)%nat with (3 + (3 * k + 1))%nat by lia.
  replace (3 + 3 * k + 2)%nat with (3 + (3 * k + 2))%nat by lia.
  reflexivity.
Qed.

Lemma std_translate_short (w : list ascii) : (length w < 3)%nat -> std_translate w = [].
Proof.
  intros H. unfold std_translate. rewrite Nat.div_small by exact H. reflexivity.
Qed.

Lemma translate_codons_dna (w : list ascii) :
  forallb (fun c => mem c dna_letters) w = true ->
  translate_codons w = Ret (std_translate w).
Proof.
  assert (Hgen : forall n w, (length w <= n)%nat ->
            forallb (fun c => mem c dna_letters) w = true ->
            translate_codons w = Ret (std_translate w)).
  { induction n as [|n IH]; intros v Hn H.
    - destruct v; [reflexivity|cbn in Hn; lia].
    - destruct v as [|a [|b [|c rest]]];
        try (rewrite std_translate_short by (cbn; lia); reflexivity).
      cbn [forallb] in H. rewrite !andb_true_iff in H. destruct H as (Ha & Hb & Hc & Hr).
      cbn in Hn.
      cbn [translate_codons]. rewrite translate_codon_dna by assumption.
      rewrite (IH rest ltac:(lia) Hr), std_translate_cons3. reflexivity. }
  intros H; apply (Hgen (length w)); auto.
Qed.

Lemma translate_codons_partial (w t : list ascii) :
  (length w mod 3 = 0)%nat -> (length t < 3)%nat ->
  translate_codons (w ++ t) = translate_codons w.
Proof.
  assert (Hgen : forall n w, (length w <= n)%nat -> (length w mod 3 = 0)%nat ->
            (length t < 3)%nat -> translate_codons (w ++ t) = translate_codons w).
  { induction n as [|n IH]; intros v Hn Hm Ht.
    - destruct v; [|cbn in Hn; lia]. cbn.
      destruct t as [|x [|y [|z t']]]; cbn in Ht; try reflexivity; lia.
    - destruct v as [|a [|b [|c rest]]]; [| cbn in Hm; discriminate | cbn in Hm; discriminate |].
      + destruct t as [|x [|y [|z t']]]; cbn in Ht; try reflexivity; lia.
      + cbn in Hn. cbn [app translate_codons].
        replace (length (a :: b :: c :: rest)) with (length rest + 1 * 3)%nat in Hm
          by (cbn; lia).
        rewrite Nat.Div0.mod_add in Hm.
        rewrite (IH rest ltac:(lia) Hm Ht). reflexivity. }
  intros Hw Ht; apply (Hgen (length w)); auto.
Qed.

(** ** The records loop *)

Lemma record_loop_capped (rs : list (list ascii * list ascii)) (cnt mx : Z)
    (out : list (list ascii)) :
  mx <= cnt -> record_loop rs cnt mx out = Ret (out, cnt).
Proof.
  intros H. destruct rs as [|[id full_seq] rest]; [reflexivity|].
  cbn [record_loop]. destruct (Z.leb_spec mx cnt); [reflexivity|lia].
Qed.

Lemma length_flat_map_record_lines (id : list ascii) (ps : list (list ascii * list ascii)) :
  length (flat_map (record_lines id) ps) = (2 * length ps)%nat.
Proof. induction ps as [|lp ps IH]; cbn [flat_map length]; [reflexivity|]. cbn. lia. Qed.

Lemma transcript_peptides_length (seq : list ascii) (ps : list (list ascii * list ascii)) :
  transcript_peptides seq = Ret (Some ps) -> length ps = 5%nat.
Proof.
  intros H. apply transcript_peptides_accepted, Forall2_length in H. rewrite <- H. reflexivity.
Qed.

Lemma record_loop_bounds (rs : list (list ascii * list ascii)) (cnt mx : Z)
    (out out' : list (list ascii)) (n : Z) :
  record_loop rs cnt mx out = Ret (out', n) ->
  cnt <= n <= Z.max mx cnt /\
  Z.of_nat (length out') = Z.of_nat (length out) + 10 * (n - cnt).
Proof.
  revert cnt out; induction rs as [|[id full_seq] rest IH]; intros cnt out H.
  - cbn in H. injection H as <- <-. lia.
  - cbn [record_loop] in H. destruct (Z.leb_spec mx cnt).
    + injection H as <- <-. lia.
    + destruct (transcript_peptides full_seq) as [[ps|]|] eqn:E; cbn [pybind] in H;
        try discriminate.
      * destruct (IH _ _ H) as [Hb Hl].
        pose proof (transcript_peptides_length _ _ E) as L5.
        rewrite length_app, length_flat_map_record_lines, L5 in Hl. lia.
      * destruct (IH _ _ H) as [Hb Hl]. lia.
Qed.

Lemma get_nucleotide_not_exc (seq : list ascii) (mid_nt shift : Z) :
  is_nucleotide_seq seq = true -> get_chimeric_peptide seq mid_nt shift <> Exc.
Proof.
  intros Hs.
  destruct (translate_nucleotide (left_window seq mid_nt)) as [la El];
    [unfold left_window, is_nucleotide_seq in *; apply forallb_py_slice; exact Hs|].
  destruct (translate_nucleotide (right_window seq mid_nt shift)) as [ra Er];
    [unfold right_window, is_nucleotide_seq in *; apply forallb_py_slice; exact Hs|].
  rewrite get_chimeric_peptide_eq, El, Er. discriminate.
Qed.

(** Below 36 nt the midpoint is at most 17: the left half has at most five
    residues and no shift yields a peptide. *)
Lemma get_short_no_peptide (seq : list ascii) (shift : Z) :
  (length seq < 36)%nat ->
  get_chimeric_peptide seq (Z.of_nat (length seq) / 2) shift = Ret None \/
  get_chimeric_peptide seq (Z.of_nat (length seq) / 2) shift = Exc.
Proof.
  intros Hlen.
  assert (Hmid : Z.of_nat (length seq) / 2 < 18) by (apply Z.div_lt_upper_bound; lia).
  pose proof (mid_nonneg seq) as Hm.
  rewrite get_chimeric_peptide_eq.
  destruct (translate (left_window seq _)) as [la|] eqn:El; [|right; reflexivity].
  destruct (translate (right_window seq _ shift)) as [ra|] eqn:Er; [|right; reflexivity].
  left. cbn [pybind]. unfold check_peptide.
  apply translate_length in El. apply translate_length in Er.
  pose proof (left_window_length seq _ Hm) as Hl.
  pose proof (right_window_length seq (Z.of_nat (length seq) / 2) shift) as Hr.
  assert (Hla : (length la <= 5)%nat) by (rewrite El; apply div3_le; lia).
  assert (Hra : (length ra <= 6)%nat) by (rewrite Er; apply div3_le; lia).
  destruct (Z.ltb_spec (Z.of_nat (length (la ++ ra))) 12); [reflexivity|].
  rewrite length_app in *. lia.
Qed.

(** ** Claims about one transcript *)






(** C4: on a window of the four DNA letters, Biopython's translation is
    the standard genetic code read over the complete codons left to right
    ([std_translate]); a trailing partial codon of one or two bases is
    dropped whatever it holds; the stop codons give ['*'], which stays in
    the output with translation going on after it; the empty window gives
    the empty string. *)
Theorem translate_is_standard_code :
  translate [] = Ret [] /\
  (forall w t, (length w mod 3 = 0)%nat -> (length t < 3)%nat ->
     translate (w ++ t) = translate w) /\
  (forall w, forallb (fun c => mem c dna_letters) w = true ->
     translate w = Ret (std_translate w)) /\
  (std_codon "T" "A" "A" = "*" /\ std_codon "T" "A" "G" = "*" /\ std_codon "T" "G" "A" = "*") /\
  translate (list_ascii_of_string "ATGTAAGGG") = Ret (list_ascii_of_string "M*G").
Proof.
  split; [reflexivity|]. split.
  { intros w t Hw Ht. unfold translate. rewrite map_app.
    apply translate_codons_partial; rewrite length_map; assumption. }
  split.
  { intros w Hw. unfold translate.
    assert (Hu : map ascii_upper w = w).
    { clear - Hw. induction w as [|c w IH]; [reflexivity|].
      cbn [forallb] in Hw. apply andb_prop in Hw as [Hc Hw].
      cbn [map]. rewrite dna_upper by exact Hc. f_equal. auto. }
    rewrite Hu. apply translate_codons_dna, Hw. }
  split; [repeat split|reflexivity].
Qed.




(** ** Further properties of the loops *)

Lemma check_peptide_length (peptide p : list ascii) :
  check_peptide peptide = Some p -> length p = 12%nat.
Proof.
  unfold check_peptide. destruct (Z.ltb_spec (Z.of_nat (length peptide)) 12); [discriminate|].
  destruct (mem "*" peptide); [discriminate|]. intros E.
  assert (L : length (firstn 12 peptide) = 12%nat) by (rewrite length_firstn; lia).
  congruence.
Qed.

Lemma get_chimeric_peptide_some_length (seq : list ascii) (mid_nt shift : Z) (p : list ascii) :
  get_chimeric_peptide seq mid_nt shift = Ret (Some p) -> length p = 12%nat.
Proof.
  rewrite get_chimeric_peptide_eq.
  destruct (translate (left_window seq mid_nt)) as [la|]; [|discriminate].
  destruct (translate (right_window seq mid_nt shift)) as [ra|]; [|discriminate].
  cbn [pybind]. intros H. injection H as H. exact (check_peptide_length _ _ H).
Qed.

(** Shifts that all yield a peptide are consumed without breaking. *)
Lemma shift_loop_prefix (seq : list ascii) (mid_nt : Z) (pre sh : list (list ascii * Z))
    (acc qs : list (list ascii * list ascii)) :
  Forall2 (fun sp lp => fst lp = fst sp /\
             get_chimeric_peptide seq mid_nt (snd sp) = Ret (Some (snd lp))) pre qs ->
  shift_loop seq mid_nt (pre ++ sh) acc = shift_loop seq mid_nt sh (acc ++ qs).
Proof.
  intros Hf. revert acc. induction Hf as [|[label shift] [l p] pre qs [Hl Hg] _ IH]; intros acc.
  - rewrite app_nil_r. reflexivity.
  - cbn [fst snd] in Hl, Hg. subst l.
    pose proof (get_chimeric_peptide_some_length _ _ _ _ Hg) as L.
    cbn [app shift_loop]. rewrite Hg. cbn [pybind].
    destruct p as [|c cs]; [discriminate|].
    rewrite IH, <- app_assoc. reflexivity.
Qed.

Lemma py_slice_map {A B : Type} (f : A -> B) (s : list A) (i j : Z) :
  py_slice (map f s) i j = map f (py_slice s i j).
Proof. unfold py_slice. rewrite length_map, skipn_map, firstn_map. reflexivity. Qed.

Lemma ascii_upper_idem (c : ascii) : ascii_upper (ascii_upper c) = ascii_upper c.
Proof. destruct c as [[] [] [] [] [] [] [] []]; reflexivity. Qed.

Lemma translate_upper (w : list ascii) : translate (map ascii_upper w) = translate w.
Proof.
  unfold translate. rewrite map_map. f_equal. apply map_ext. apply ascii_upper_idem.
Qed.

Lemma get_chimeric_peptide_upper (seq : list ascii) (mid_nt shift : Z) :
  get_chimeric_peptide (map ascii_upper seq) mid_nt shift = get_chimeric_peptide seq mid_nt shift.
Proof.
  rewrite !get_chimeric_peptide_eq. unfold left_window, right_window.
  rewrite !py_slice_map, !translate_upper. reflexivity.
Qed.

Lemma shift_loop_ext (s1 s2 : list ascii) (mid_nt : Z) (sh : list (list ascii * Z))
    (acc : list (list ascii * list ascii)) :
  Forall (fun sp => get_chimeric_peptide s1 mid_nt (snd sp) =
                    get_chimeric_peptide s2 mid_nt (snd sp)) sh ->
  shift_loop s1 mid_nt sh acc = shift_loop s2 mid_nt sh acc.
Proof.
  intros Hf. revert acc. induction Hf as [|[label shift] sh E _ IH]; intros acc; [reflexivity|].
  cbn [shift_loop]. cbn [snd] in E. rewrite E.
  destruct (get_chimeric_peptide s2 mid_nt shift) as [[[|c cs]|]|]; cbn [pybind]; auto.
Qed.

(** Two sequences of the same length that agree on the positions in
    [lo, hi) give the same slice for bounds inside that range. *)
Lemma py_slice_agree {A : Type} (s1 s2 : list A) (i j lo hi : Z) :
  length s1 = length s2 ->
  (forall k : nat, lo <= Z.of_nat k < hi -> nth_error s1 k = nth_error s2 k) ->
  lo <= norm_index i (Z.of_nat (length s1)) ->
  norm_index j (Z.of_nat (length s1)) <= hi ->
  py_slice s1 i j = py_slice s2 i j.
Proof.
  intros Hlen Hag Hlo Hhi. unfold py_slice. rewrite <- Hlen.
  pose proof (norm_index_bounds i (Z.of_nat (length s1)) (Nat2Z.is_nonneg _)) as Bi.
  pose proof (norm_index_bounds j (Z.of_nat (length s1)) (Nat2Z.is_nonneg _)) as Bj.
  apply nth_error_ext. intros k. rewrite !nth_error_firstn, !nth_error_skipn.
  destruct (Nat.ltb_spec k (Z.to_nat (norm_index j (Z.of_nat (length s1)) -
                                      norm_index i (Z.of_nat (length s1))))); [|reflexivity].
  apply Hag. lia.
Qed.

Lemma get_chimeric_peptide_agree (s1 s2 : list ascii) (mid_nt shift : Z) :
  length s1 = length s2 -> 0 <= mid_nt <= Z.of_nat (length s1) -> -2 <= shift <= 2 ->
  (forall k : nat, Z.max (mid_nt - 18) 0 <= Z.of_nat k < mid_nt + 20 ->
     nth_error s1 k = nth_error s2 k) ->
  get_chimeric_peptide s1 mid_nt shift = get_chimeric_peptide s2 mid_nt shift.
Proof.
  intros Hlen Hm Hs Hag. rewrite !get_chimeric_peptide_eq. unfold left_window, right_window.
  assert (Hn : 0 <= Z.of_nat (length s1)) by lia.
  rewrite (py_slice_agree s1 s2 (Z.max (mid_nt - 18) 0) mid_nt
             (Z.max (mid_nt - 18) 0) (mid_nt + 20) Hlen Hag);
    [| unfold norm_index; destruct (Z.ltb_spec (Z.max (mid_nt - 18) 0) 0); lia
     | unfold norm_index; destruct (Z.ltb_spec mid_nt 0); lia].
  rewrite (py_slice_agree s1 s2 (mid_nt + shift) (mid_nt + shift + 18)
             (Z.max (mid_nt - 18) 0) (mid_nt + 20) Hlen Hag);
    [reflexivity
    | unfold norm_index; destruct (Z.ltb_spec (mid_nt + shift) 0); lia
    | unfold norm_index; destruct (Z.ltb_spec (mid_nt + shift + 18) 0); lia].
Qed.

Lemma record_loop_split (rs1 rs2 : list (list ascii * list ascii)) (cnt mx : Z)
    (out : list (list ascii)) :
  record_loop (rs1 ++ rs2) cnt mx out =
  (let! r := record_loop rs1 cnt mx out in record_loop rs2 (snd r) mx (fst r)).
Proof.
  revert cnt out; induction rs1 as [|[id full_seq] rest IH]; intros cnt out; [reflexivity|].
  cbn [app record_loop]. destruct (Z.leb_spec mx cnt).
  - cbn [pybind fst snd]. symmetry. apply record_loop_capped. exact H.
  - destruct (transcript_peptides full_seq) as [[ps|]|]; cbn [pybind]; auto.
Qed.








End Chimeric.

(** ** File names *)

Lemma str_eqb_true (a b : list ascii) : str_eqb a b = true <-> a = b.
Proof. unfold str_eqb. destruct (list_eq_dec ascii_dec a b); split; congruence. Qed.

Lemma endswith_app (b suf : list ascii) : endswith (b ++ suf) suf = true.
Proof.
  unfold endswith. rewrite length_app.
  replace (length b + length suf - length suf)%nat with (length b) by lia.
  rewrite skipn_app, skipn_all, Nat.sub_diag. cbn [skipn app].
  apply andb_true_intro. split; [apply Nat.leb_le; lia | apply str_eqb_true; reflexivity].
Qed.

Lemma endswith_app_other (b s suf : list ascii) :
  (length suf <= length s)%nat ->
  str_eqb (skipn (length s - length suf) s) suf = false ->
  endswith (b ++ s) suf = false.
Proof.
  intros Hl He. unfold endswith. rewrite length_app.
  replace (length b + length s - length suf)%nat with (length b + (length s - length suf))%nat
    by lia.
  rewrite skipn_app, skipn_all2 by lia.
  replace (length b + (length s - length suf) - length b)%nat with (length s - length suf)%nat
    by lia.
  cbn [app]. rewrite He. apply andb_false_r.
Qed.

Lemma endswith_inv (s suf : list ascii) :
  endswith s suf = true -> s = firstn (length s - length suf) s ++ suf.
Proof.
  unfold endswith. intros H. apply andb_prop in H as [_ H]. apply str_eqb_true in H.
  rewrite <- H at 2. symmetry. apply firstn_skipn.
Qed.

Lemma endswith_suffix (s pre suf : list ascii) :
  endswith s (pre ++ suf) = true -> endswith s suf = true.
Proof.
  intros H. apply endswith_inv in H. rewrite H, app_assoc. apply endswith_app.
Qed.

Lemma In_firstn_skipn {A : Type} (x : A) (n : nat) (l : list A) :
  In x (firstn n l) \/ In x (skipn n l) -> In x l.
Proof. intros H. rewrite <- (firstn_skipn n l). apply in_or_app. exact H. Qed.

Lemma startswith_not_in (n : list ascii) : ~ In "/" n -> startswith n ["/"] = false.
Proof.
  intros Hn. destruct (startswith n ["/"]) eqn:E; [|reflexivity]. exfalso. apply Hn.
  unfold startswith in E. apply andb_prop in E as [_ E]. apply str_eqb_true in E.
  apply (In_firstn_skipn _ (length ["/"])). left. rewrite E. left. reflexivity.
Qed.

Lemma rfind_from_bounds (c : ascii) (p : list ascii) (i best : Z) :
  best < i -> best <= rfind_from c p i best < i + Z.of_nat (length p).
Proof.
  revert i best; induction p as [|x xs IH]; intros i best Hb; cbn [rfind_from length]; [lia|].
  specialize (IH (i + 1) (if Ascii.eqb x c then i else best)).
  destruct (Ascii.eqb x c); lia.
Qed.

(** No occurrence of [c] lies after the index [rfind] reports. *)
Lemma rfind_from_after (c : ascii) (p : list ascii) (i best : Z) (k : nat) :
  best < i -> rfind_from c p i best < i + Z.of_nat k -> nth_error p k <> Some c.
Proof.
  revert i best k; induction p as [|x xs IH]; intros i best k Hb Hr; [destruct k; discriminate|].
  cbn [rfind_from] in Hr. destruct k as [|k]; cbn [nth_error].
  - pose proof (rfind_from_bounds c xs (i + 1) (if Ascii.eqb x c then i else best)) as B.
    destruct (Ascii.eqb x c) eqn:E.
    + lia.
    + intros H. injection H as ->. rewrite Ascii.eqb_refl in E. discriminate.
  - apply (IH (i + 1) (if Ascii.eqb x c then i else best)); [destruct (Ascii.eqb x c); lia | lia].
Qed.

Lemma rfind_from_app (c : ascii) (x y : list ascii) (i best : Z) :
  rfind_from c (x ++ y) i best = rfind_from c y (i + Z.of_nat (length x)) (rfind_from c x i best).
Proof.
  revert i best; induction x as [|a x IH]; intros i best; cbn [app rfind_from length].
  - rewrite Z.add_0_r. reflexivity.
  - rewrite IH. f_equal. lia.
Qed.

Lemma rfind_from_not_in (c : ascii) (y : list ascii) (i best : Z) :
  ~ In c y -> rfind_from c y i best = best.
Proof.
  revert i; induction y as [|a y IH]; intros i Hn; [reflexivity|]. cbn [rfind_from].
  destruct (Ascii.eqb a c) eqn:E.
  - apply Ascii.eqb_eq in E. subst. exfalso. apply Hn. left. reflexivity.
  - apply IH. intros H. apply Hn. right. exact H.
Qed.

Lemma rfind_from_single (c : ascii) (i best : Z) : rfind_from c [c] i best = i.
Proof. cbn [rfind_from]. rewrite Ascii.eqb_refl. reflexivity. Qed.

Lemma In_py_slice {A : Type} (x : A) (s : list A) (i j : Z) :
  In x (py_slice s i j) ->
  exists k : nat, norm_index i (Z.of_nat (length s)) <= Z.of_nat k /\ nth_error s k = Some x.
Proof.
  intros H. apply In_nth_error in H as [k Hk]. unfold py_slice in Hk.
  rewrite nth_error_firstn, nth_error_skipn in Hk.
  destruct (_ <? _)%nat; [|discriminate].
  pose proof (norm_index_bounds i (Z.of_nat (length s)) (Nat2Z.is_nonneg _)).
  exists (Z.to_nat (norm_index i (Z.of_nat (length s))) + k)%nat. split; [lia | exact Hk].
Qed.

Lemma In_py_slice_In {A : Type} (x : A) (s : list A) (i j : Z) :
  In x (py_slice s i j) -> In x s.
Proof. intros H. destruct (In_py_slice x s i j H) as (k & _ & Hk). exact (nth_error_In _ _ Hk). Qed.

Lemma py_slice_prefix {A : Type} (b r : list A) :
  py_slice (b ++ r) 0 (Z.of_nat (length b)) = b.
Proof.
  unfold py_slice, norm_index. rewrite length_app. cbn [Z.ltb Z.compare].
  destruct (Z.ltb_spec (Z.of_nat (length b)) 0); [lia|].
  rewrite Z.min_l, Z.min_l by lia. rewrite Z.sub_0_r, Nat2Z.id. cbn [Z.to_nat skipn].
  rewrite firstn_app, firstn_all, Nat.sub_diag. apply app_nil_r.
Qed.

Lemma py_slice_drop_suffix {A : Type} (b suf : list A) :
  (0 < length suf)%nat ->
  py_slice (b ++ suf) 0 (- Z.of_nat (length suf)) = b.
Proof.
  intros Hs. unfold py_slice, norm_index. rewrite length_app.
  destruct (Z.ltb_spec (- Z.of_nat (length suf)) 0); [|lia].
  replace (Z.max (- Z.of_nat (length suf) + Z.of_nat (length b + length suf)) 0)
    with (Z.of_nat (length b)) by lia.
  cbn [Z.ltb Z.compare]. rewrite Z.min_l by lia.
  rewrite Z.sub_0_r, Nat2Z.id. cbn [Z.to_nat skipn].
  rewrite firstn_app, firstn_all, Nat.sub_diag. apply app_nil_r.
Qed.

Lemma basename_no_slash (p : list ascii) : ~ In "/" (basename p).
Proof.
  intros H. unfold basename in H. apply In_py_slice in H as (k & Hk & Hnth).
  pose proof (rfind_from_bounds "/" p 0 (-1) ltac:(lia)) as B. unfold rfind in Hk.
  assert (Hlt : (k < length p)%nat) by (apply nth_error_Some; congruence).
  unfold norm_index in Hk.
  destruct (Z.ltb_spec (rfind_from "/" p 0 (-1) + 1) 0); [lia|].
  apply (rfind_from_after "/" p 0 (-1) k); [lia | lia | exact Hnth].
Qed.

Lemma basename_plain (n : list ascii) : ~ In "/" n -> basename n = n.
Proof.
  intros Hn. unfold basename, rfind. rewrite rfind_from_not_in by exact Hn.
  pose proof (py_slice_prefix n []) as E. rewrite app_nil_r in E. exact E.
Qed.

Lemma basename_after_slash (x n : list ascii) :
  ~ In "/" n -> basename ((x ++ ["/"]) ++ n) = n.
Proof.
  intros Hn. unfold basename, rfind.
  rewrite rfind_from_app, rfind_from_app, rfind_from_single, rfind_from_not_in by exact Hn.
  unfold py_slice, norm_index. rewrite !length_app. cbn [length].
  destruct (Z.ltb_spec (0 + Z.of_nat (length x) + 1) 0); [lia|].
  destruct (Z.ltb_spec (Z.of_nat (length x + 1 + length n)) 0); [lia|].
  rewrite Z.min_l, Z.min_l by lia.
  replace (Z.to_nat (0 + Z.of_nat (length x) + 1)) with (length (x ++ ["/"]))
    by (rewrite length_app; cbn [length]; lia).
  rewrite skipn_app, skipn_all, Nat.sub_diag. cbn [skipn app].
  apply firstn_all2. lia.
Qed.

(** [os.path.basename(os.path.join(d, n))] is [n] for a name without a
    slash. *)
Lemma basename_join (d n : list ascii) : ~ In "/" n -> basename (path_join d n) = n.
Proof.
  intros Hn. unfold path_join. rewrite startswith_not_in by exact Hn.
  destruct ((length d =? 0)%nat || endswith d ["/"]) eqn:E.
  - apply orb_true_iff in E as [E|E].
    + apply Nat.eqb_eq, length_zero_iff_nil in E. subst d. apply basename_plain, Hn.
    + apply endswith_inv in E. rewrite E. apply basename_after_slash, Hn.
  - replace (d ++ "/" :: n) with ((d ++ ["/"]) ++ n) by (rewrite <- app_assoc; reflexivity).
    apply basename_after_slash, Hn.
Qed.

Lemma no_slash_app (b suf : list ascii) :
  ~ In "/" b -> mem "/" suf = false -> ~ In "/" (b ++ suf).
Proof.
  intros Hb Hs H. apply in_app_or in H as [H|H]; [exact (Hb H)|].
  apply mem_In in H. congruence.
Qed.

Lemma count_dots_suffix (s suf : list ascii) :
  endswith s suf = true ->
  (count_occ ascii_dec suf "." <= count_occ ascii_dec s ".")%nat.
Proof. intros H. apply endswith_inv in H. rewrite H, count_occ_app. lia. Qed.

Lemma count_dots_one (b e : list ascii) :
  ~ In "." b -> ~ In "." e -> count_occ ascii_dec (b ++ "." :: e) "." = 1%nat.
Proof.
  intros Hb He. rewrite count_occ_app. cbn [count_occ].
  destruct (ascii_dec "." "."); [|contradiction].
  apply (count_occ_not_In ascii_dec) in Hb, He. rewrite Hb, He. reflexivity.
Qed.

(** X7: [output_name] never contains a slash, whatever the path. *)
Theorem output_name_no_slash (fasta_path : list ascii) : ~ In "/" (output_name fasta_path).
Proof.
  intros H. apply (basename_no_slash fasta_path). unfold output_name in H.
  destruct (endswith _ _); [exact (In_py_slice_In _ _ _ _ H)|].
  destruct (endswith _ _); [exact (In_py_slice_In _ _ _ _ H)|].
  unfold splitext in H.
  destruct (_ <? _); [|exact H]. destruct (existsb _ _); [|exact H].
  exact (In_py_slice_In _ _ _ _ H).
Qed.

(** X8: [name.fa.gz] and [name.fasta.gz] in any directory are both opened
    with gzip and both get the output name [name], hence the same combined
    output file path. *)
Theorem gz_inputs_share_output_file (d b output_prefix : list ascii) :
  ~ In "/" b ->
  let fa := path_join d (b ++ list_ascii_of_string ".fa.gz") in
  let fasta := path_join d (b ++ list_ascii_of_string ".fasta.gz") in
  open_fasta fa = GzipText /\ open_fasta fasta = GzipText /\
  output_name fa = b /\ output_name fasta = b /\
  combined_output_file output_prefix fa = combined_output_file output_prefix fasta.
Proof.
  intros Hb fa fasta.
  assert (Nfa : output_name fa = b).
  { unfold output_name, fa. rewrite basename_join by (apply no_slash_app; [exact Hb | reflexivity]).
    rewrite endswith_app. apply (py_slice_drop_suffix b (list_ascii_of_string ".fa.gz")).
    cbn. lia. }
  assert (Nfasta : output_name fasta = b).
  { unfold output_name, fasta.
    rewrite basename_join by (apply no_slash_app; [exact Hb | reflexivity]).
    rewrite endswith_app_other by first [reflexivity | cbn; lia]. rewrite endswith_app.
    apply (py_slice_drop_suffix b (list_ascii_of_string ".fasta.gz")). cbn. lia. }
  assert (Ofa : forall n, endswith n (list_ascii_of_string ".fa.gz") = true ->
                 open_fasta n = GzipText).
  { intros n Hn. unfold open_fasta.
    rewrite (endswith_suffix n (list_ascii_of_string ".fa") (list_ascii_of_string ".gz") Hn).
    reflexivity. }
  assert (Ofasta : forall n, endswith n (list_ascii_of_string ".fasta.gz") = true ->
                    open_fasta n = GzipText).
  { intros n Hn. unfold open_fasta.
    rewrite (endswith_suffix n (list_ascii_of_string ".fasta") (list_ascii_of_string ".gz") Hn).
    reflexivity. }
  split; [|split; [|split; [exact Nfa|split; [exact Nfasta|]]]].
  - apply Ofa. unfold fa, path_join.
    destruct (startswith _ _); [apply endswith_app|].
    destruct (_ || _); [rewrite app_assoc; apply endswith_app|].
    rewrite app_comm_cons, app_assoc. apply endswith_app.
  - apply Ofasta. unfold fasta, path_join.
    destruct (startswith _ _); [apply endswith_app|].
    destruct (_ || _); [rewrite app_assoc; apply endswith_app|].
    rewrite app_comm_cons, app_assoc. apply endswith_app.
  - unfold combined_output_file. rewrite Nfa, Nfasta. reflexivity.
Qed.

(** X9: a plain [name.ext] (name non-empty, neither part holding a slash
    or a dot) gets the output name [name]. *)
Theorem output_name_single_extension (d b e : list ascii) :
  b <> [] -> ~ In "/" b -> ~ In "." b -> ~ In "/" e -> ~ In "." e ->
  output_name (path_join d (b ++ "." :: e)) = b.
Proof.
  intros Hne Hb Hbd He Hed.
  assert (Hs : ~ In "/" (b ++ "." :: e)).
  { intros H. apply in_app_or in H as [H|[H|H]]; [exact (Hb H) | discriminate | exact (He H)]. }
  unfold output_name. rewrite basename_join by exact Hs.
  pose proof (count_dots_one b e Hbd Hed) as C1.
  destruct (endswith (b ++ "." :: e) (list_ascii_of_string ".fa.gz")) eqn:E1.
  { apply count_dots_suffix in E1. rewrite C1 in E1. cbn in E1. lia. }
  destruct (endswith (b ++ "." :: e) (list_ascii_of_string ".fasta.gz")) eqn:E2.
  { apply count_dots_suffix in E2. rewrite C1 in E2. cbn in E2. lia. }
  unfold splitext, rfind. rewrite (rfind_from_not_in "/") by exact Hs.
  replace (b ++ "." :: e) with ((b ++ ["."]) ++ e) by (rewrite <- app_assoc; reflexivity).
  rewrite !rfind_from_app, (rfind_from_not_in "." e) by exact Hed.
  rewrite rfind_from_single.
  destruct (Z.ltb_spec (-1) (0 + Z.of_nat (length b))); [|destruct b; [congruence | cbn in *; lia]].
  rewrite Z.add_0_l, <- app_assoc, py_slice_prefix. cbn [Z.add].
  rewrite py_slice_prefix.
  destruct b as [|c cs]; [congruence|]. cbn [existsb].
  destruct (Ascii.eqb c ".") eqn:Ec.
  - apply Ascii.eqb_eq in Ec. subst. exfalso. apply Hbd. left. reflexivity.
  - reflexivity.
Qed.

(** X10: the combined output file lies in [simulated_chimeric_peptides/]
    unless the output prefix is an absolute path, in which case
    [os.path.join] drops the directory. *)
Theorem combined_output_file_location (output_prefix fasta_path : list ascii) :
  let rest := "_" :: output_name fasta_path ++ list_ascii_of_string "_combined.fasta" in
  (startswith output_prefix ["/"] = false ->
   combined_output_file output_prefix fasta_path = output_dir ++ "/" :: output_prefix ++ rest) /\
  (startswith output_prefix ["/"] = true ->
   combined_output_file output_prefix fasta_path = output_prefix ++ rest).
Proof.
  intros rest. unfold combined_output_file, path_join. fold rest.
  assert (E : startswith (output_prefix ++ rest) ["/"] = startswith output_prefix ["/"])
    by (destruct output_prefix; reflexivity).
  rewrite E. split; intros H; rewrite H; reflexivity.
Qed.

(** ** The right window at a negative start *)

(** C3 (code defect): for the 2-nt transcript [AC] the midpoint is 1 and the
    [-2_frame] shift starts the right window at index -1.  Python reads
    [seq[-1:17]] from the end of the sequence and gets [C], whereas the
    range [-1 .. 17) cut down to the sequence is [AC].  The left window is
    guarded by [max(..., 0)]; the right one is not. *)
Theorem right_window_negative_start_wraps :
  let seq := list_ascii_of_string "AC" in
  let mid_nt := Z.of_nat (length seq) / 2 in
  In (list_ascii_of_string "-2_frame", -2) shifts /\
  mid_nt + -2 = -1 /\
  right_window seq mid_nt (-2) = ["C"] /\
  spec_truncated_slice seq (mid_nt + -2) (mid_nt + -2 + 18) = ["A"; "C"].
Proof.
  cbv zeta. split; [right; right; right; right; left; reflexivity|].
  split; [reflexivity|]. split; reflexivity.
Qed.

(** ** Counterexamples *)




(** ** Witnesses: the theorems at concrete inputs *)



Lemma translate_is_standard_code_witness :
  translate residue_X (list_ascii_of_string "ATGCCA" ++ list_ascii_of_string "TG") =
    translate residue_X (list_ascii_of_string "ATGCCA") /\
  translate residue_X (list_ascii_of_string "ATGTAAGGGC") =
    Ret (std_translate (list_ascii_of_string "ATGTAAGGGC")).
Proof.
  destruct (translate_is_standard_code residue_X) as (_ & Hpart & Hdna & _).
  split.
  - apply Hpart; [reflexivity | cbn; lia].
  - apply Hdna. reflexivity.
Defined.











Lemma gz_inputs_share_output_file_witness :
  output_name (path_join (list_ascii_of_string "cDNA_sequences")
                 (list_ascii_of_string "human" ++ list_ascii_of_string ".fasta.gz")) =
    list_ascii_of_string "human" /\
  combined_output_file (list_ascii_of_string "chimeric_peptides")
    (path_join (list_ascii_of_string "cDNA_sequences")
       (list_ascii_of_string "human" ++ list_ascii_of_string ".fa.gz")) =
  combined_output_file (list_ascii_of_string "chimeric_peptides")
    (path_join (list_ascii_of_string "cDNA_sequences")
       (list_ascii_of_string "human" ++ list_ascii_of_string ".fasta.gz")).
Proof.
  destruct (gz_inputs_share_output_file (list_ascii_of_string "cDNA_sequences")
              (list_ascii_of_string "human") (list_ascii_of_string "chimeric_peptides"))
    as (_ & _ & _ & H1 & H2).
  - intros H. apply mem_In in H. vm_compute in H. discriminate H.
  - split; [exact H1 | exact H2].
Defined.

Lemma output_name_single_extension_witness :
  output_name (path_join (list_ascii_of_string "cDNA_sequences")
                 (list_ascii_of_string "human" ++ "." :: list_ascii_of_string "fa")) =
  list_ascii_of_string "human".
Proof.
  apply output_name_single_extension; [discriminate | ..];
    intros H; apply mem_In in H; vm_compute in H; discriminate H.
Defined.

Lemma combined_output_file_location_witness :
  combined_output_file (list_ascii_of_string "chimeric_peptides")
    (list_ascii_of_string "cDNA_sequences/human.fa.gz") =
  list_ascii_of_string "simulated_chimeric_peptides/chimeric_peptides_human_combined.fasta" /\
  combined_output_file (list_ascii_of_string "/tmp/run")
    (list_ascii_of_string "cDNA_sequences/human.fa.gz") =
  list_ascii_of_string "/tmp/run_human_combined.fasta".
Proof.
  split.
  - rewrite (proj1 (combined_output_file_location (list_ascii_of_string "chimeric_peptides")
                      (list_ascii_of_string "cDNA_sequences/human.fa.gz")) eq_refl).
    vm_compute. reflexivity.
  - rewrite (proj2 (combined_output_file_location (list_ascii_of_string "/tmp/run")
                      (list_ascii_of_string "cDNA_sequences/human.fa.gz")) eq_refl).
    vm_compute. reflexivity.
Defined.

